(** * Gaussian-splatting viewer: loader and visualization builder

    A shallow embedding of [gaussian_splatting_St_v14.py]:
    - [load_ply_file] (lines 32-66), over an explicit file system and an
      abstract Open3D decoder;
    - [create_gaussian_splatting_visualization] (lines 68-134), as a pure
      function from the record to the Plotly figure;
    - [display_point_cloud_info] (lines 136-152) and the two branches of the
      script (lines 158-193 and 194-226), over the list of elements a run
      puts on the page; the sphere points of the sample are taken as given.

    Numbers: NumPy's float64 values are modelled by exact rationals [Q];
    rounding, infinities and NaN are outside the model.  Computed values are
    therefore compared with [==] ([Qeq]) where arithmetic is involved.  The
    numbers of the scenarios are evaluated on binary64 as well ([Binary64]).

    Libraries: Plotly's constructors are record constructors here (what they
    validate in their arguments is not modelled), and of Open3D only the
    interface the loader calls is assumed. *)

From Stdlib Require Import ZArith QArith Qround String List Bool Lia.
From Stdlib Require Import DecimalString Lqa.
From Stdlib Require Import Floats.PrimFloat Floats.SpecFloat Floats.FloatOps.
From stdpp Require Import base option list gmap.

Import ListNotations.
Local Open Scope Z_scope.
Local Open Scope string_scope.

(** ** Exceptions and results *)

Inductive exn : Type :=
| ValueError      (* NumPy: zero-size array to reduction operation *)
| OSError         (* a failed write or unlink *)
| DecodeError.    (* whatever the external decoder raises *)

Inductive result (A : Type) : Type :=
| Ok (a : A)
| Raise (e : exn).
Arguments Ok {A} a.
Arguments Raise {A} e.

(** Sequencing stops at the first exception. *)
#[global] Instance result_ret : MRet result := fun A a => Ok a.
#[global] Instance result_bind : MBind result := fun A B k r =>
  match r with
  | Ok a => k a
  | Raise e => Raise e
  end.

(** ** Arrays of shape (N, 3) *)

Definition row3 : Type := (Q * Q * Q)%type.

Definition col0 (p : row3) : Q := fst (fst p).
Definition col1 (p : row3) : Q := snd (fst p).
Definition col2 (p : row3) : Q := snd p.

(** [a[:, k]] *)
Definition column (k : row3 -> Q) (a : list row3) : list Q := List.map k a.

(** Componentwise [==] on rows. *)
Definition row_eq (a b : row3) : Prop :=
  (col0 a == col0 b /\ col1 a == col1 b /\ col2 a == col2 b)%Q.

(** [np.minimum] and [np.maximum] on two scalars. *)
Definition np_minimum (a b : Q) : Q := if Qle_bool a b then a else b.
Definition np_maximum (a b : Q) : Q := if Qle_bool b a then a else b.

(** [a.min()] and [a.max()]: a reduction from the first element; a zero-size
    array has no identity and raises [ValueError]. *)
Definition np_min (a : list Q) : result Q :=
  match a with
  | [] => Raise ValueError
  | x :: rest => Ok (fold_left np_minimum rest x)
  end.

Definition np_max (a : list Q) : result Q :=
  match a with
  | [] => Raise ValueError
  | x :: rest => Ok (fold_left np_maximum rest x)
  end.

(** Python's builtin [max(a, b, c)]: keeps the first of the largest. *)
Definition py_max_step (m x : Q) : Q := if Qle_bool x m then m else x.
Definition py_max3 (a b c : Q) : Q := py_max_step (py_max_step a b) c.

(** Python's [int(x)] on a number: truncation toward zero. *)
Definition py_int (x : Q) : Z := Z.quot (Qnum x) (Zpos (Qden x)).

(** [str(n)] for an integer. *)
Definition py_str (n : Z) : string := NilZero.string_of_int (Z.to_int n).

(** ** The record handed from the loader to the builder *)

Record PointCloudRecord (Handle : Type) : Type := mkRecord {
  points : list row3;
  colors : list row3;
  normals : option (list row3);
  pcd : Handle
}.
Arguments mkRecord {Handle} _ _ _ _.
Arguments points {Handle} _.
Arguments colors {Handle} _.
Arguments normals {Handle} _.
Arguments pcd {Handle} _.

(** ** The Plotly figure *)

Record Line : Type := mkLine { line_width : Z }.

Record Marker : Type := mkMarker {
  marker_size : Q;
  marker_color : list string;
  marker_opacity : Q;
  marker_line : Line
}.

Record Scatter3d : Type := mkScatter3d {
  trace_x : list Q;
  trace_y : list Q;
  trace_z : list Q;
  trace_mode : string;
  trace_marker : Marker;
  trace_hoverinfo : string
}.

Record Axis : Type := mkAxis {
  visible : bool;
  showticklabels : bool;
  showgrid : bool;
  zeroline : bool;
  showbackground : bool
}.

Record Camera : Type := mkCamera {
  cam_up : row3;
  cam_center : row3;
  cam_eye : row3
}.

Record Scene : Type := mkScene {
  xaxis : Axis;
  yaxis : Axis;
  zaxis : Axis;
  aspectmode : string;
  camera : Camera;
  bgcolor : string
}.

Record Margin : Type := mkMargin { margin_l : Z; margin_r : Z; margin_b : Z; margin_t : Z }.

Record Layout : Type := mkLayout {
  scene : Scene;
  margin : Margin;
  scene_dragmode : string;
  height : Z;
  width : Z
}.

Record Figure : Type := mkFigure {
  fig_data : list Scatter3d;
  fig_layout : option Layout
}.

(** ** The visualization builder (lines 68-134) *)

(** One colour channel: [int(c*255)]. *)
Definition channel (c : Q) : Z := py_int (c * 255)%Q.

(** [f'rgb({int(r*255)},{int(g*255)},{int(b*255)})'] *)
Definition rgb_string (c : row3) : string :=
  let '(r, g, b) := c in
  "rgb(" ++ py_str (channel r) ++ "," ++ py_str (channel g) ++ ","
         ++ py_str (channel b) ++ ")".

(** The locals of lines 95-112. *)
Record Framing : Type := mkFraming {
  x_range : Q * Q;
  y_range : Q * Q;
  z_range : Q * Q;
  center : row3;
  max_range : Q;
  camera_dist : Q
}.

Definition axis_range (a : list Q) : result (Q * Q) :=
  lo ← np_min a;
  hi ← np_max a;
  Ok (lo, hi).

Definition camera_framing (points : list row3) : result Framing :=
  x_range ← axis_range (column col0 points);
  y_range ← axis_range (column col1 points);
  z_range ← axis_range (column col2 points);
  let center :=
    ((fst x_range + snd x_range) / 2,
     (fst y_range + snd y_range) / 2,
     (fst z_range + snd z_range) / 2)%Q in
  let max_range :=
    py_max3 (snd x_range - fst x_range)
            (snd y_range - fst y_range)
            (snd z_range - fst z_range)%Q in
  let camera_dist := (max_range * 2.5)%Q in
  Ok (mkFraming x_range y_range z_range center max_range camera_dist).

Definition hidden_axis : Axis := mkAxis false false false false false.

Definition scatter_trace (points : list row3) (color_hex : list string)
    (point_size : Q) : Scatter3d :=
  mkScatter3d (column col0 points) (column col1 points) (column col2 points)
    "markers"
    (mkMarker point_size color_hex 0.8%Q (mkLine 0))
    "none".

Definition update_layout (fig : Figure) (camera_dist : Q) : Figure :=
  mkFigure (fig_data fig)
    (Some (mkLayout
       (mkScene hidden_axis hidden_axis hidden_axis "data"
          (mkCamera (0, 0, 1)%Q (0, 0, 0)%Q
                    (camera_dist, camera_dist, camera_dist / 2)%Q)
          "rgba(0,0,0,0)")
       (mkMargin 0 0 0 0)
       "orbit" 800 900)).

Definition create_gaussian_splatting_visualization {Handle : Type}
    (data : PointCloudRecord Handle) (point_size splat_scale : Q)
    : result Figure :=
  let points := points data in
  let colors := colors data in
  let color_hex := List.map rgb_string colors in
  let fig := mkFigure [scatter_trace points color_hex point_size] None in
  fr ← camera_framing points;
  Ok (update_layout fig (camera_dist fr)).

(** ** The file system and the I/O monad of the loader *)

(** Files are named by [positive]; the device has [fs_free] bytes left. *)
Record FileSystem : Type := mkFS {
  fs_files : gmap positive (list Byte.byte);
  fs_free : nat
}.

Definition IO (A : Type) : Type := FileSystem -> result A * FileSystem.

#[global] Instance IO_ret : MRet IO := fun A a fs => (Ok a, fs).
#[global] Instance IO_bind : MBind IO := fun A B k m fs =>
  match m fs with
  | (Ok a, fs') => k a fs'
  | (Raise e, fs') => (Raise e, fs')
  end.

(** [try: body finally: fin]: [fin] runs on every exit of [body]; the
    outcome of [body] stands unless [fin] itself raises. *)
Definition try_finally {A} (body : IO A) (fin : IO unit) : IO A := fun fs =>
  let '(r, fs1) := body fs in
  match fin fs1 with
  | (Ok _, fs2) => (r, fs2)
  | (Raise e, fs2) => (Raise e, fs2)
  end.

(** [tempfile.NamedTemporaryFile(suffix='.ply', delete=False)]: a new, empty
    file under a name not in use.  With [delete=False] leaving the [with]
    block only closes it. *)
Definition NamedTemporaryFile : IO positive := fun fs =>
  let name := fresh (dom (fs_files fs)) in
  (Ok name, mkFS (<[name := []]> (fs_files fs)) (fs_free fs)).

(** [tmp_file.write(data)]: fails with [OSError] when the device is full. *)
Definition file_write (name : positive) (data : list Byte.byte) : IO unit := fun fs =>
  if (length data <=? fs_free fs)%nat
  then (Ok tt, mkFS (<[name := data]> (fs_files fs)) (fs_free fs - length data)%nat)
  else (Raise OSError, fs).

(** [os.unlink(name)] *)
Definition os_unlink (name : positive) : IO unit := fun fs =>
  match fs_files fs !! name with
  | Some data => (Ok tt, mkFS (delete name (fs_files fs)) (fs_free fs + length data)%nat)
  | None => (Raise OSError, fs)
  end.

(** The part of Open3D the loader calls. *)
Class Open3D : Type := {
  PointCloud : Type;
  (** the decoder, on what is stored under the path it is given *)
  decode : option (list Byte.byte) -> result PointCloud;
  pcd_points : PointCloud -> list row3;
  pcd_colors : PointCloud -> list row3;
  pcd_normals : PointCloud -> list row3;
  has_colors : PointCloud -> bool;
  has_normals : PointCloud -> bool
}.

(** Open3D's [has_colors] holds only of clouds with one colour per point. *)
Definition colors_aligned (o3d : Open3D) : Prop :=
  forall p : PointCloud,
    has_colors p = true -> length (pcd_colors p) = length (pcd_points p).

(** [np.ones((n, 3))] and [a * s] *)
Definition np_ones (n : nat) : list row3 := repeat (1, 1, 1)%Q n.
Definition np_scale (a : list row3) (s : Q) : list row3 :=
  List.map (fun '(x, y, z) => (x * s, y * s, z * s)%Q) a.

Section Loader.
Context {o3d : Open3D}.

(** [o3d.io.read_point_cloud(name)] *)
Definition read_point_cloud (name : positive) : IO PointCloud := fun fs =>
  (decode (fs_files fs !! name), fs).

(** Lines 32-66. *)
Definition load_ply_file (file_bytes : list Byte.byte)
    : IO (PointCloudRecord PointCloud) :=
  tmp_filename ← (tmp_file ← NamedTemporaryFile;
                  _ ← file_write tmp_file file_bytes;
                  mret tmp_file);
  try_finally
    (pcd ← read_point_cloud tmp_filename;
     let points := pcd_points pcd in
     let colors :=
       if has_colors pcd then pcd_colors pcd
       else np_scale (np_ones (length points)) 0.5 in
     let normals :=
       if has_normals pcd then Some (pcd_normals pcd) else None in
     mret (mkRecord points colors normals pcd))
    (os_unlink tmp_filename).
End Loader.

(** The record lines 43-63 build from a decoded cloud, for the statements. *)
Definition record_of {o3d : Open3D} (cloud : PointCloud)
    : PointCloudRecord PointCloud :=
  mkRecord (pcd_points cloud)
    (if has_colors cloud then pcd_colors cloud
     else np_scale (np_ones (length (pcd_points cloud))) 0.5)
    (if has_normals cloud then Some (pcd_normals cloud) else None)
    cloud.

(** ** A small decoder, to run the loader on concrete files

    A cloud is a triple of arrays; [has_colors] and [has_normals] are
    Open3D's: the cloud is not empty and the array has one row per point.
    The format: a first byte [01] announces colours; every further three
    bytes [x y z] are one point (coloured red when announced).  A missing
    file decodes to the empty cloud; an empty file or a truncated point is
    rejected. *)

Record ToyCloud : Type := mkToy {
  toy_points : list row3;
  toy_colors : list row3;
  toy_normals : list row3
}.

Definition toy_coord (b : Byte.byte) : Q := inject_Z (Z.of_N (Byte.to_N b)).

Fixpoint toy_rows (body : list Byte.byte) : result (list row3) :=
  match body with
  | [] => Ok []
  | x :: y :: z :: rest =>
      rows ← toy_rows rest;
      Ok ((toy_coord x, toy_coord y, toy_coord z) :: rows)
  | _ => Raise DecodeError
  end.

Definition toy_decode (content : option (list Byte.byte)) : result ToyCloud :=
  match content with
  | None => Ok (mkToy [] [] [])
  | Some [] => Raise DecodeError
  | Some (flag :: body) =>
      pts ← toy_rows body;
      if Byte.eqb flag Byte.x01
      then Ok (mkToy pts (List.map (fun _ => (1, 0, 0)%Q) pts) [])
      else Ok (mkToy pts [] [])
  end.

Definition toy_aligned (pts a : list row3) : bool :=
  (0 <? length pts)%nat && (length a =? length pts)%nat.

#[global] Instance toy_o3d : Open3D := {|
  PointCloud := ToyCloud;
  decode := toy_decode;
  pcd_points := toy_points;
  pcd_colors := toy_colors;
  pcd_normals := toy_normals;
  has_colors := fun p => toy_aligned (toy_points p) (toy_colors p);
  has_normals := fun p => toy_aligned (toy_points p) (toy_normals p)
|}.

(** A cube with corners (0,0,0) and (10,10,10). *)
Definition cube : list row3 :=
  [(0, 0, 0); (10, 0, 0); (0, 10, 0); (10, 10, 0);
   (0, 0, 10); (10, 0, 10); (0, 10, 10); (10, 10, 10)]%Q.

(** ** The scalar steps on binary64

    The same scalar expressions on IEEE 754 doubles, to evaluate the numbers
    of the scenarios without the idealisation. *)

Set Warnings "-inexact-float".

Module Binary64.

(** [int(x)] on a float: truncation toward zero; [OverflowError] on an
    infinity and [ValueError] on NaN are both [None]. *)
Definition py_int (x : float) : option Z :=
  match Prim2SF x with
  | S754_zero _ => Some 0
  | S754_finite s m e =>
      let magnitude := Z.shiftl (Zpos m) e in
      Some (if s then - magnitude else magnitude)
  | S754_infinity _ | S754_nan => None
  end.

Definition channel (c : float) : option Z := py_int (c * 255)%float.

Definition midpoint (lo hi : float) : float := ((lo + hi) / 2)%float.
Definition camera_dist (max_range : float) : float := (max_range * 2.5)%float.
Definition eye (camera_dist : float) : float * float * float :=
  (camera_dist, camera_dist, (camera_dist / 2)%float).
End Binary64.

(** ** Vocabulary of the statements *)

Section Vocabulary.
Local Open Scope Q_scope.

(** What "the observed [min, max] of an axis" means. *)
Definition bounds (r : Q * Q) (a : list Q) : Prop :=
  In (fst r) a /\ In (snd r) a /\
  forall v, In v a -> fst r <= v /\ v <= snd r.

(** What "the largest of three" means. *)
Definition largest_of3 (m a b c : Q) : Prop :=
  (m = a \/ m = b \/ m = c) /\ a <= m /\ b <= m /\ c <= m.


Definition span (r : Q * Q) : Q := snd r - fst r.
End Vocabulary.

(** ** The page, the sidebar statistics and the upload branch of the script *)

(** What a run puts on the page, in the order of the calls.  [st.spinner]
    shows nothing that stays and is left out. *)
Inductive Element : Type :=
| SidebarSubheader (text : string)
| SidebarWrite (text : string)
| SidebarSlider (label : string)
| SidebarButton (label : string)
| SidebarDownloadButton (label : string) (data : list Byte.byte)
    (file_name mime : string)
| PlotlyChart (fig : Figure)
| StError (text : string)
| StInfo (text : string)
| StSubheader (text : string).

Record App : Type := mkApp {
  app_fs : FileSystem;
  app_page : list Element
}.

Definition UI (A : Type) : Type := App -> result A * App.

#[global] Instance UI_ret : MRet UI := fun A a app => (Ok a, app).
#[global] Instance UI_bind : MBind UI := fun A B k m app =>
  match m app with
  | (Ok a, app') => k a app'
  | (Raise e, app') => (Raise e, app')
  end.

(** A Streamlit call that adds an element. *)
Definition show (el : Element) : UI unit := fun app =>
  (Ok tt, mkApp (app_fs app) (app_page app ++ [el])).

(** A widget that adds an element and returns the value the user set. *)
Definition widget {A : Type} (el : Element) (value : A) : UI A := fun app =>
  (Ok value, mkApp (app_fs app) (app_page app ++ [el])).

Definition lift_io {A : Type} (m : IO A) : UI A := fun app =>
  let '(r, fs') := m (app_fs app) in (r, mkApp fs' (app_page app)).

Definition lift_result {A : Type} (r : result A) : UI A := fun app => (r, app).

(** [try: body except Exception as e: handler(e)] *)
Definition try_except {A : Type} (body : UI A) (handler : exn -> UI A) : UI A :=
  fun app =>
    match body app with
    | (Ok a, app') => (Ok a, app')
    | (Raise e, app') => handler e app'
    end.

(** What the script takes from Python and Open3D besides the loader:
    the format specs [:,] and [.2f], [str(e)], and the encoder
    [o3d.io.write_point_cloud] with the buffer's bytes as result. *)
Class Runtime (o3d : Open3D) : Type := {
  format_thousands : nat -> string;
  format_2f : Q -> string;
  exn_str : exn -> string;
  write_point_cloud : PointCloud -> result (list Byte.byte)
}.

(** The values of the sliders and of the button in this run. *)
Record Controls : Type := mkControls {
  point_size_value : Z;
  splat_scale_value : Q;
  download_clicked : bool
}.

(** [a.min(axis=0)] and [a.max(axis=0)] on an array of shape (N, 3). *)
Definition np_min_axis0 (a : list row3) : result row3 :=
  x ← np_min (column col0 a);
  y ← np_min (column col1 a);
  z ← np_min (column col2 a);
  Ok (x, y, z).

Definition np_max_axis0 (a : list row3) : result row3 :=
  x ← np_max (column col0 a);
  y ← np_max (column col1 a);
  z ← np_max (column col2 a);
  Ok (x, y, z).

Section Script.
Context {o3d : Open3D} {rt : Runtime o3d}.

Definition range_line (axis : string) (lo hi : Q) : string :=
  axis ++ ": [" ++ format_2f lo ++ ", " ++ format_2f hi ++ "]".

(** Lines 136-152. *)
Definition display_point_cloud_info {Handle : Type}
    (data : PointCloudRecord Handle) : UI unit :=
  let points := points data in
  _ ← show (SidebarSubheader "Point Cloud Information");
  _ ← show (SidebarWrite ("Number of points: " ++ format_thousands (length points)));
  _ ← show (SidebarWrite "Bounding Box:");
  lo ← lift_result (np_min_axis0 points);
  hi ← lift_result (np_max_axis0 points);
  let '(x_min, y_min, z_min) := lo in
  let '(x_max, y_max, z_max) := hi in
  _ ← show (SidebarWrite (range_line "X" x_min x_max));
  _ ← show (SidebarWrite (range_line "Y" y_min y_max));
  _ ← show (SidebarWrite (range_line "Z" z_min z_max));
  match normals data with
  | Some _ => show (SidebarWrite "Normals: Available")
  | None => show (SidebarWrite "Normals: Not available")
  end.

(** Lines 158-193: the branch taken when a file was uploaded. *)
Definition render_uploaded_file (file_bytes : list Byte.byte) (ctl : Controls)
    : UI unit :=
  try_except
    (data ← lift_io (load_ply_file file_bytes);
     _ ← display_point_cloud_info data;
     _ ← show (SidebarSubheader "Visualization Settings");
     point_size ← widget (SidebarSlider "Point Size") (point_size_value ctl);
     splat_scale ← widget (SidebarSlider "Gaussian Splat Scale") (splat_scale_value ctl);
     fig ← lift_result
             (create_gaussian_splatting_visualization data
                (inject_Z point_size) splat_scale);
     _ ← show (PlotlyChart fig);
     _ ← show (SidebarSubheader "Advanced Options");
     clicked ← widget (SidebarButton "Download Processed Point Cloud")
                 (download_clicked ctl);
     if clicked : bool then
       buffer ← lift_result (write_point_cloud (pcd data));
       show (SidebarDownloadButton "Download PLY" buffer
               "processed_pointcloud.ply" "application/octet-stream")
     else mret tt)
    (fun e => show (StError ("Error processing the PLY file: " ++ exn_str e))).
(** The seven sidebar entries for a cloud with framing [fr]. *)
Definition statistics_entries {Handle : Type}
    (data : PointCloudRecord Handle) (fr : Framing) : list Element :=
  [SidebarSubheader "Point Cloud Information";
   SidebarWrite ("Number of points: " ++ format_thousands (length (points data)));
   SidebarWrite "Bounding Box:";
   SidebarWrite (range_line "X" (fst (x_range fr)) (snd (x_range fr)));
   SidebarWrite (range_line "Y" (fst (y_range fr)) (snd (y_range fr)));
   SidebarWrite (range_line "Z" (fst (z_range fr)) (snd (z_range fr)));
   SidebarWrite (match normals data with
                 | Some _ => "Normals: Available"
                 | None => "Normals: Not available"
                 end)].

(** The three entries written before the bounding box is computed. *)
Definition statistics_head (n : nat) : list Element :=
  [SidebarSubheader "Point Cloud Information";
   SidebarWrite ("Number of points: " ++ format_thousands n);
   SidebarWrite "Bounding Box:"].

(** The entries of the settings, of the chart with the download button
    under it, and of the download itself. *)
Definition settings_entries : list Element :=
  [SidebarSubheader "Visualization Settings";
   SidebarSlider "Point Size";
   SidebarSlider "Gaussian Splat Scale"].

Definition chart_entries (fig : Figure) : list Element :=
  [PlotlyChart fig;
   SidebarSubheader "Advanced Options";
   SidebarButton "Download Processed Point Cloud"].

Definition error_box (e : exn) : Element :=
  StError ("Error processing the PLY file: " ++ exn_str e).

Definition download_entries (cloud : PointCloud) (clicked : bool) : list Element :=
  if clicked then
    match write_point_cloud cloud with
    | Ok buffer =>
        [SidebarDownloadButton "Download PLY" buffer
           "processed_pointcloud.ply" "application/octet-stream"]
    | Raise e => [error_box e]
    end
  else [].
End Script.

(** Lines 212-223: the colours and the record of the sample, for the sphere
    points of lines 201-210 (sines and cosines, taken as given). *)
Definition sample_colors (points : list row3) : list row3 :=
  List.map (fun p => ((col0 p + 1) / 2, (col1 p + 1) / 2, (col2 p + 1) / 2)%Q)
    points.

Definition sample_data (points : list row3) : PointCloudRecord (option unit) :=
  mkRecord points (sample_colors points) None None.

(** Lines 194-226: the branch taken when no file was uploaded.  It has no
    [try]: an exception of the builder would leave the script. *)
Definition render_sample (points : list row3) : UI unit :=
  _ ← show (StInfo "Upload a PLY file to visualize it with Gaussian splatting.");
  _ ← show (StSubheader "Sample Visualization (Will be replaced with your data)");
  fig ← lift_result (create_gaussian_splatting_visualization (sample_data points) 5 1.0);
  show (PlotlyChart fig).

(** How many charts and how many error boxes a page holds. *)
Definition is_chart (el : Element) : bool :=
  match el with PlotlyChart _ => true | _ => false end.
Definition is_error (el : Element) : bool :=
  match el with StError _ => true | _ => false end.
Definition charts (page : list Element) : nat := length (List.filter is_chart page).
Definition errors (page : list Element) : nat := length (List.filter is_error page).

(** A runtime for the small decoder: counts and coordinates are written as
    whole numbers, the encoder writes one byte per point. *)
#[global] Instance toy_runtime : Runtime toy_o3d := {|
  format_thousands := fun n => py_str (Z.of_nat n);
  format_2f := fun q => py_str (py_int q) ++ ".00";
  exn_str := fun e =>
    match e with
    | ValueError => "zero-size array to reduction operation minimum which has no identity"
    | OSError => "No space left on device"
    | DecodeError => "cannot decode"
    end;
  write_point_cloud := fun p => Ok (List.map (fun _ => Byte.x2e) (toy_points p))
|}.


(** ** Moving and resizing a cloud *)




(** * Properties *)

(** ** Reductions and comparisons *)

Section Reductions.
Local Open Scope Q_scope.

Lemma np_minimum_le (a b : Q) : np_minimum a b <= a /\ np_minimum a b <= b.
Proof.
  unfold np_minimum. destruct (Qle_bool a b) eqn:E.
  - apply Qle_bool_iff in E. split; [apply Qle_refl | exact E].
  - split; [| apply Qle_refl].
    destruct (Qlt_le_dec b a) as [H | H]; [now apply Qlt_le_weak |].
    apply Qle_bool_iff in H. congruence.
Qed.

Lemma np_maximum_ge (a b : Q) : a <= np_maximum a b /\ b <= np_maximum a b.
Proof.
  unfold np_maximum. destruct (Qle_bool b a) eqn:E.
  - apply Qle_bool_iff in E. split; [apply Qle_refl | exact E].
  - split; [| apply Qle_refl].
    destruct (Qlt_le_dec a b) as [H | H]; [now apply Qlt_le_weak |].
    apply Qle_bool_iff in H. congruence.
Qed.

Lemma np_minimum_pick (a b : Q) : np_minimum a b = a \/ np_minimum a b = b.
Proof. unfold np_minimum. destruct (Qle_bool a b); auto. Qed.

Lemma np_maximum_pick (a b : Q) : np_maximum a b = a \/ np_maximum a b = b.
Proof. unfold np_maximum. destruct (Qle_bool b a); auto. Qed.

Lemma fold_minimum_spec (rest : list Q) (x : Q) :
  In (fold_left np_minimum rest x) (x :: rest) /\
  forall y, In y (x :: rest) -> fold_left np_minimum rest x <= y.
Proof.
  revert x. induction rest as [| y rest IH]; intros x; simpl.
  - split; [auto |]. intros y [<- | []]. apply Qle_refl.
  - destruct (IH (np_minimum x y)) as [Hin Hle]. split.
    + destruct Hin as [Hm | Hm]; [| auto].
      rewrite <- Hm. destruct (np_minimum_pick x y) as [-> | ->]; auto.
    + intros z Hz.
      assert (Hxy : fold_left np_minimum rest (np_minimum x y) <= np_minimum x y)
        by (apply Hle; left; reflexivity).
      destruct (np_minimum_le x y) as [Hx Hy].
      destruct Hz as [<- | [<- | Hz]].
      * eapply Qle_trans; eauto.
      * eapply Qle_trans; eauto.
      * apply Hle. right. exact Hz.
Qed.

Lemma fold_maximum_spec (rest : list Q) (x : Q) :
  In (fold_left np_maximum rest x) (x :: rest) /\
  forall y, In y (x :: rest) -> y <= fold_left np_maximum rest x.
Proof.
  revert x. induction rest as [| y rest IH]; intros x; simpl.
  - split; [auto |]. intros y [<- | []]. apply Qle_refl.
  - destruct (IH (np_maximum x y)) as [Hin Hle]. split.
    + destruct Hin as [Hm | Hm]; [| auto].
      rewrite <- Hm. destruct (np_maximum_pick x y) as [-> | ->]; auto.
    + intros z Hz.
      assert (Hxy : np_maximum x y <= fold_left np_maximum rest (np_maximum x y))
        by (apply Hle; left; reflexivity).
      destruct (np_maximum_ge x y) as [Hx Hy].
      destruct Hz as [<- | [<- | Hz]].
      * eapply Qle_trans; eauto.
      * eapply Qle_trans; eauto.
      * apply Hle. right. exact Hz.
Qed.

Lemma axis_range_spec (a : list Q) :
  a <> [] -> exists r, axis_range a = Ok r /\ bounds r a.
Proof.
  destruct a as [| x rest]; [congruence | intros _].
  exists (fold_left np_minimum rest x, fold_left np_maximum rest x).
  split; [reflexivity |].
  destruct (fold_minimum_spec rest x) as [Hi Hl].
  destruct (fold_maximum_spec rest x) as [Ha Hg].
  unfold bounds; simpl fst; simpl snd. repeat split; auto.
Qed.

Lemma axis_range_empty : axis_range [] = Raise ValueError.
Proof. reflexivity. Qed.

Lemma py_max_step_spec (m x : Q) :
  (py_max_step m x = m \/ py_max_step m x = x) /\
  m <= py_max_step m x /\ x <= py_max_step m x.
Proof.
  unfold py_max_step. destruct (Qle_bool x m) eqn:E.
  - apply Qle_bool_iff in E. repeat split; auto. apply Qle_refl.
  - repeat split; auto; [| apply Qle_refl].
    destruct (Qlt_le_dec m x) as [H | H]; [now apply Qlt_le_weak |].
    apply Qle_bool_iff in H. congruence.
Qed.

Lemma py_max3_spec (a b c : Q) : largest_of3 (py_max3 a b c) a b c.
Proof.
  unfold py_max3, largest_of3.
  destruct (py_max_step_spec a b) as [Hab [Ha Hb]].
  destruct (py_max_step_spec (py_max_step a b) c) as [Hc [Hm Hcc]].
  repeat split.
  - destruct Hc as [-> | ->]; [destruct Hab as [-> | ->] |]; auto.
  - eapply Qle_trans; eauto.
  - eapply Qle_trans; eauto.
  - exact Hcc.
Qed.
End Reductions.

(** ** Camera framing *)

Section CameraFraming.
Local Open Scope Q_scope.

Lemma column_nonempty (k : row3 -> Q) (pts : list row3) :
  pts <> [] -> column k pts <> [].
Proof. destruct pts; [congruence | discriminate]. Qed.


Lemma camera_framing_spec (pts : list row3) :
  pts <> [] ->
  exists fr,
    camera_framing pts = Ok fr /\
    bounds (x_range fr) (column col0 pts) /\
    bounds (y_range fr) (column col1 pts) /\
    bounds (z_range fr) (column col2 pts) /\
    center fr = ((fst (x_range fr) + snd (x_range fr)) / 2,
                 (fst (y_range fr) + snd (y_range fr)) / 2,
                 (fst (z_range fr) + snd (z_range fr)) / 2) /\
    max_range fr = py_max3 (span (x_range fr)) (span (y_range fr)) (span (z_range fr)) /\
    camera_dist fr = max_range fr * 2.5.
Proof.
  intros Hne.
  destruct (axis_range_spec (column col0 pts) (column_nonempty col0 pts Hne)) as [rx [Ex Bx]].
  destruct (axis_range_spec (column col1 pts) (column_nonempty col1 pts Hne)) as [ry [Ey By]].
  destruct (axis_range_spec (column col2 pts) (column_nonempty col2 pts Hne)) as [rz [Ez Bz]].
  eexists. split.
  - unfold camera_framing. rewrite Ex, Ey, Ez. reflexivity.
  - simpl.
    repeat match goal with |- _ /\ _ => split end; try assumption; reflexivity.
Qed.

Lemma build_of_framing {Handle : Type} (data : PointCloudRecord Handle)
    (point_size splat_scale : Q) (fr : Framing) :
  camera_framing (points data) = Ok fr ->
  exists fig lay,
    create_gaussian_splatting_visualization data point_size splat_scale = Ok fig /\
    fig_data fig =
      [scatter_trace (points data) (List.map rgb_string (colors data)) point_size] /\
    fig_layout fig = Some lay /\
    camera (scene lay) =
      mkCamera (0, 0, 1) (0, 0, 0)
               (camera_dist fr, camera_dist fr, camera_dist fr / 2).
Proof.
  intros E. unfold create_gaussian_splatting_visualization. rewrite E.
  do 2 eexists. repeat split; reflexivity.
Qed.
End CameraFraming.



(** ** The loader *)

Section LoaderFacts.
Context {o3d : Open3D}.

Lemma fresh_name_unused (fs : FileSystem) :
  fs_files fs !! fresh (dom (fs_files fs)) = None.
Proof. apply not_elem_of_dom, is_fresh. Qed.

(** When the bytes fit on the device, the loader hands back what the decoder
    makes of them and leaves the file system as it found it. *)
Lemma load_ply_file_written (file_bytes : list Byte.byte) (fs : FileSystem) :
  (length file_bytes <= fs_free fs)%nat ->
  load_ply_file file_bytes fs =
    (match decode (Some file_bytes) with
     | Ok cloud => Ok (record_of cloud)
     | Raise e => Raise e
     end, fs).
Proof.
  intros Hfit. apply Nat.leb_le in Hfit.
  unfold load_ply_file, mbind, IO_bind, NamedTemporaryFile, file_write,
    try_finally, read_point_cloud, os_unlink, mret, IO_ret; simpl.
  rewrite Hfit; simpl. rewrite lookup_insert_eq.
  assert (Hfs : mkFS
            (delete (fresh (dom (fs_files fs)))
               (<[fresh (dom (fs_files fs)) := file_bytes]>
                  (<[fresh (dom (fs_files fs)) := []]> (fs_files fs))))
            (fs_free fs - length file_bytes + length file_bytes)%nat = fs).
  { rewrite insert_insert_eq, delete_insert_id by apply fresh_name_unused.
    apply Nat.leb_le in Hfit. destruct fs as [files free]; simpl in *.
    f_equal. lia. }
  destruct (decode (Some file_bytes)) as [cloud | e]; simpl;
    rewrite lookup_insert_eq; simpl; f_equal; exact Hfs.
Qed.

(** When they do not fit, the write raises before the [try] is entered. *)
Lemma load_ply_file_unwritten (file_bytes : list Byte.byte) (fs : FileSystem) :
  (fs_free fs < length file_bytes)%nat ->
  load_ply_file file_bytes fs =
    (Raise OSError,
     mkFS (<[fresh (dom (fs_files fs)) := []]> (fs_files fs)) (fs_free fs)).
Proof.
  intros Hfull. apply Nat.leb_gt in Hfull.
  unfold load_ply_file, mbind, IO_bind, NamedTemporaryFile, file_write; simpl.
  rewrite Hfull. reflexivity.
Qed.

Lemma load_ply_file_ok (file_bytes : list Byte.byte) (fs fs' : FileSystem)
    (rec : PointCloudRecord PointCloud) :
  load_ply_file file_bytes fs = (Ok rec, fs') ->
  exists cloud, decode (Some file_bytes) = Ok cloud /\ rec = record_of cloud /\ fs' = fs.
Proof.
  intros Hload.
  destruct (Nat.le_gt_cases (length file_bytes) (fs_free fs)) as [Hfit | Hfull].
  - rewrite (load_ply_file_written _ _ Hfit) in Hload.
    destruct (decode (Some file_bytes)) as [cloud | e]; [| discriminate].
    exists cloud. inversion Hload; auto.
  - rewrite (load_ply_file_unwritten _ _ Hfull) in Hload. discriminate.
Qed.

Lemma default_colors_length (n : nat) (s : Q) : length (np_scale (np_ones n) s) = n.
Proof. unfold np_scale, np_ones. rewrite List.length_map. apply repeat_length. Qed.

Lemma default_colors_gray (n : nat) :
  Forall (fun c => c = (0.5, 0.5, 0.5)%Q) (np_scale (np_ones n) 0.5).
Proof.
  unfold np_scale, np_ones. induction n as [| n IH]; simpl.
  - constructor.
  - constructor; [reflexivity | exact IH].
Qed.

Lemma record_of_lengths (cloud : PointCloud) :
  colors_aligned o3d ->
  length (colors (record_of cloud)) = length (points (record_of cloud)).
Proof.
  intros Hal. unfold record_of; simpl.
  destruct (has_colors cloud) eqn:E.
  - apply Hal, E.
  - apply default_colors_length.
Qed.
End LoaderFacts.

Lemma toy_colors_aligned : colors_aligned toy_o3d.
Proof.
  intros p H. simpl in *. unfold toy_aligned in H.
  apply andb_true_iff in H. destruct H as [_ H].
  apply Nat.eqb_eq in H. exact H.
Qed.

(** Once the bytes are written, no exit of the loader leaves the temporary
    file: the decoder returning and the decoder raising both end with the
    file system as it was before the call. *)
Lemma temp_file_removed_after_write {o3d : Open3D}
    (file_bytes : list Byte.byte) (fs : FileSystem) :
  (length file_bytes <= fs_free fs)%nat ->
  snd (load_ply_file file_bytes fs) = fs.
Proof. intros Hfit. rewrite (load_ply_file_written _ _ Hfit). reflexivity. Qed.

(** C2. When the decoded cloud has no colour channel, the loader returns a
    record whose [colors] has one entry per point, each exactly
    (0.5, 0.5, 0.5). *)
Theorem default_gray_without_color_channel {o3d : Open3D}
    (file_bytes : list Byte.byte) (fs : FileSystem) (cloud : PointCloud) :
  (length file_bytes <= fs_free fs)%nat ->
  decode (Some file_bytes) = Ok cloud ->
  has_colors cloud = false ->
  exists rec,
    load_ply_file file_bytes fs = (Ok rec, fs) /\
    points rec = pcd_points cloud /\
    length (colors rec) = length (points rec) /\
    Forall (fun c => c = (0.5, 0.5, 0.5)%Q) (colors rec).
Proof.
  intros Hfit Hdec Hnc. exists (record_of cloud).
  rewrite (load_ply_file_written _ _ Hfit), Hdec.
  unfold record_of; simpl. rewrite Hnc.
  repeat split.
  - apply default_colors_length.
  - apply default_colors_gray.
Qed.

(** Two points without colours, read from a six-byte body. *)
Lemma default_gray_two_points :
  let file_bytes := [Byte.x00; Byte.x02; Byte.x03; Byte.x04;
                     Byte.x0a; Byte.x0a; Byte.x0a] in
  exists rec,
    load_ply_file file_bytes (mkFS ∅ 64) = (Ok rec, mkFS ∅ 64) /\
    points rec = [(2, 3, 4); (10, 10, 10)]%Q /\
    length (colors rec) = length (points rec) /\
    Forall (fun c => c = (0.5, 0.5, 0.5)%Q) (colors rec).
Proof.
  intros file_bytes.
  destruct (default_gray_without_color_channel (o3d := toy_o3d) file_bytes (mkFS ∅ 64)
              (mkToy [(2, 3, 4); (10, 10, 10)]%Q [] []))
    as (rec & Hload & Hpts & Hlen & Hall).
  - simpl. lia.
  - reflexivity.
  - reflexivity.
  - exists rec. auto.
Defined.

(** C3. With a decoder whose clouds, when they have colours, have one per
    point: every input it parses gives a record, and every record the loader
    returns has [len(colors) == len(points)], with or without a colour
    channel in the source. *)
Theorem colors_and_points_have_equal_length {o3d : Open3D} :
  colors_aligned o3d ->
  (forall (file_bytes : list Byte.byte) (fs : FileSystem) (cloud : PointCloud),
      (length file_bytes <= fs_free fs)%nat ->
      decode (Some file_bytes) = Ok cloud ->
      exists rec,
        load_ply_file file_bytes fs = (Ok rec, fs) /\
        points rec = pcd_points cloud /\
        length (colors rec) = length (points rec)) /\
  (forall (file_bytes : list Byte.byte) (fs fs' : FileSystem)
          (rec : PointCloudRecord PointCloud),
      load_ply_file file_bytes fs = (Ok rec, fs') ->
      length (colors rec) = length (points rec)).
Proof.
  intros Hal. split.
  - intros file_bytes fs cloud Hfit Hdec. exists (record_of cloud).
    rewrite (load_ply_file_written _ _ Hfit), Hdec.
    repeat split. apply record_of_lengths, Hal.
  - intros file_bytes fs fs' rec Hload.
    destruct (load_ply_file_ok _ _ _ _ Hload) as (cloud & _ & -> & _).
    apply record_of_lengths, Hal.
Qed.

(** A coloured point and an uncoloured one, through the small decoder. *)
Lemma colors_and_points_toy :
  colors_aligned toy_o3d /\
  (exists rec,
      load_ply_file [Byte.x01; Byte.x02; Byte.x03; Byte.x04] (mkFS ∅ 64)
        = (Ok rec, mkFS ∅ 64) /\
      length (colors rec) = length (points rec)) /\
  (exists rec,
      load_ply_file [Byte.x00; Byte.x02; Byte.x03; Byte.x04] (mkFS ∅ 64)
        = (Ok rec, mkFS ∅ 64) /\
      length (colors rec) = length (points rec)).
Proof.
  split; [exact toy_colors_aligned |].
  pose proof (colors_and_points_have_equal_length (o3d := toy_o3d) toy_colors_aligned)
    as [Hret _].
  split.
  - destruct (Hret [Byte.x01; Byte.x02; Byte.x03; Byte.x04] (mkFS ∅ 64)
                (mkToy [(2, 3, 4)%Q] [(1, 0, 0)%Q] []))
      as (rec & Hload & _ & Hlen); [simpl; lia | reflexivity |].
    exists rec. auto.
  - destruct (Hret [Byte.x00; Byte.x02; Byte.x03; Byte.x04] (mkFS ∅ 64)
                (mkToy [(2, 3, 4)%Q] [] []))
      as (rec & Hload & _ & Hlen); [simpl; lia | reflexivity |].
    exists rec. auto.
Defined.

(** C6, where the code falls short. [tmp_file.write] runs before the [try]
    block is entered: when the write raises, [os.unlink] is never reached and
    the file made by [NamedTemporaryFile(delete=False)] stays on the device
    while the exception propagates. *)
Theorem temp_file_left_when_write_fails {o3d : Open3D}
    (file_bytes : list Byte.byte) (fs : FileSystem) :
  (fs_free fs < length file_bytes)%nat ->
  exists tmp fs',
    load_ply_file file_bytes fs = (Raise OSError, fs') /\
    fs_files fs !! tmp = None /\
    fs_files fs' !! tmp = Some [].
Proof.
  intros Hfull.
  exists (fresh (dom (fs_files fs))). eexists.
  split; [apply (load_ply_file_unwritten _ _ Hfull) |].
  split; [apply fresh_name_unused |].
  simpl. apply lookup_insert_eq.
Qed.

(** A one-byte upload on a full device. *)
Lemma temp_file_left_on_full_device :
  (fs_free (mkFS ∅ 0) < length [Byte.x00])%nat /\
  exists tmp fs',
    load_ply_file (o3d := toy_o3d) [Byte.x00] (mkFS ∅ 0) = (Raise OSError, fs') /\
    fs_files (mkFS ∅ 0) !! tmp = None /\
    fs_files fs' !! tmp = Some [].
Proof.
  split; [simpl; lia |].
  apply (temp_file_left_when_write_fails (o3d := toy_o3d)). simpl; lia.
Defined.

(** ** Colour conversion *)

Section ColourConversion.
Local Open Scope Q_scope.

Lemma py_int_floor (x : Q) : 0 <= x -> py_int x = Qfloor x.
Proof.
  destruct x as [n d]. unfold Qle, py_int, Qfloor; simpl.
  intros H. apply Z.quot_div_nonneg; lia.
Qed.

(** Truncation is toward zero: the sign comes out of [int]. *)
Lemma py_int_opp (x : Q) : py_int (- x) = (- py_int x)%Z.
Proof. destruct x as [n d]. unfold py_int; simpl. apply Z.quot_opp_l. lia. Qed.

End ColourConversion.



(** ** The builder as a function of its arguments *)

(** C4. [splat_scale] is accepted and has no effect: any two values give the
    same outcome, figure or exception. *)
Theorem splat_scale_has_no_effect {Handle : Type}
    (data : PointCloudRecord Handle) (point_size s1 s2 : Q) :
  create_gaussian_splatting_visualization data point_size s1
  = create_gaussian_splatting_visualization data point_size s2.
Proof. reflexivity. Qed.

(** [point_size], by contrast, reaches the figure. *)
Lemma point_size_has_an_effect :
  create_gaussian_splatting_visualization (mkRecord cube [] None tt) 5 1
  <> create_gaussian_splatting_visualization (mkRecord cube [] None tt) 6 1.
Proof. intros H. discriminate H. Qed.

(** C10. The outcome depends on the record through [points] and [colors]
    only: records that agree on these two, whatever their normals and
    handles (even of different types), give the same outcome. *)
Theorem builder_reads_points_and_colors_only {H1 H2 : Type}
    (d1 : PointCloudRecord H1) (d2 : PointCloudRecord H2)
    (point_size splat_scale : Q) :
  points d1 = points d2 ->
  colors d1 = colors d2 ->
  create_gaussian_splatting_visualization d1 point_size splat_scale
  = create_gaussian_splatting_visualization d2 point_size splat_scale.
Proof.
  intros Hp Hc. unfold create_gaussian_splatting_visualization.
  rewrite Hp, Hc. reflexivity.
Qed.

(** The cube, once as decoded with normals and once as the sample record. *)
Lemma builder_ignores_normals_and_handle :
  let d1 := mkRecord cube [] (Some cube) (mkToy cube [] cube) in
  let d2 := mkRecord cube [] None tt in
  points d1 = points d2 /\ colors d1 = colors d2 /\
  create_gaussian_splatting_visualization d1 5 1
  = create_gaussian_splatting_visualization d2 5 1.
Proof.
  intros d1 d2. split; [reflexivity | split; [reflexivity |]].
  apply (builder_reads_points_and_colors_only d1 d2); reflexivity.
Defined.

(** C7. On the empty cloud the bounding-box step raises ([ValueError] of the
    zero-size reduction): no figure is returned. *)
Theorem empty_cloud_raises {Handle : Type}
    (data : PointCloudRecord Handle) (point_size splat_scale : Q) :
  points data = [] ->
  camera_framing (points data) = Raise ValueError /\
  create_gaussian_splatting_visualization data point_size splat_scale
  = Raise ValueError.
Proof.
  intros Hp. unfold create_gaussian_splatting_visualization.
  rewrite Hp. split; reflexivity.
Qed.

(** The empty cloud as the loader returns it. *)
Lemma empty_cloud_raises_instance :
  let data := mkRecord [] [] None (mkToy [] [] []) in
  points data = [] /\
  create_gaussian_splatting_visualization data 5 1 = Raise ValueError.
Proof.
  intros data. split; [reflexivity |].
  apply (empty_cloud_raises data 5%Q 1%Q). reflexivity.
Defined.

(** ** Degenerate clouds and marker style *)

Section SinglePoint.
Local Open Scope Q_scope.

End SinglePoint.



(** C9 as stated fails: on the cube the one trace has opacity 0.8, not 1. *)
Lemma markers_are_not_fully_opaque :
  exists fig,
    create_gaussian_splatting_visualization (mkRecord cube [] None tt) 5 1 = Ok fig /\
    List.map (fun tr => marker_opacity (trace_marker tr)) (fig_data fig) = [0.8%Q] /\
    ~ (0.8 == 1)%Q.
Proof.
  eexists. split; [reflexivity |]. split; [reflexivity |].
  intros H. discriminate H.
Qed.

(** C9, amended. Every figure the builder returns has exactly one trace, in
    mode "markers", one colour string per entry of [colors], no outline, and
    marker opacity 0.8. *)
Theorem markers_are_colored_with_opacity_0_8 {Handle : Type}
    (data : PointCloudRecord Handle) (point_size splat_scale : Q) (fig : Figure) :
  create_gaussian_splatting_visualization data point_size splat_scale = Ok fig ->
  exists tr,
    fig_data fig = [tr] /\
    trace_mode tr = "markers" /\
    marker_color (trace_marker tr) = List.map rgb_string (colors data) /\
    line_width (marker_line (trace_marker tr)) = 0%Z /\
    marker_opacity (trace_marker tr) = 0.8%Q.
Proof.
  unfold create_gaussian_splatting_visualization.
  destruct (camera_framing (points data)) as [fr | e]; simpl; [| discriminate].
  intros H. inversion H; subst; clear H. simpl.
  eexists. split; [reflexivity |]. repeat split.
Qed.

(** The markers of the cube. *)
Lemma markers_of_the_cube :
  exists fig tr,
    create_gaussian_splatting_visualization (mkRecord cube [] None tt) 5 1 = Ok fig /\
    fig_data fig = [tr] /\
    marker_opacity (trace_marker tr) = 0.8%Q.
Proof.
  eexists.
  destruct (markers_are_colored_with_opacity_0_8 (mkRecord cube [] None tt) 5%Q 1%Q _ eq_refl)
    as (tr & H1 & _ & _ & _ & H2).
  exists tr. split; [reflexivity | auto].
Defined.

(** ** The scenario values on binary64 *)

Lemma binary64_channels :
  Binary64.channel 0.999 = Some 254 /\
  Binary64.channel 1.0 = Some 255 /\
  Binary64.channel 0.5 = Some 127 /\
  Binary64.channel 0 = Some 0.
Proof. repeat split. Qed.

Lemma binary64_cube_camera :
  Binary64.midpoint 0 10 = 5%float /\
  (10 - 0 = 10)%float /\
  Binary64.camera_dist 10 = 25%float /\
  Binary64.eye 25 = (25, 25, 12.5)%float.
Proof. repeat split. Qed.

Lemma binary64_single_point_camera :
  (2 - 2 = 0)%float /\ (3 - 3 = 0)%float /\ (4 - 4 = 0)%float /\
  Binary64.camera_dist 0 = 0%float /\
  Binary64.eye 0 = (0, 0, 0)%float /\
  (1 * 0.5 = 0.5)%float.
Proof. repeat split. Qed.

(** * Further properties of the loader *)

(** X1. When the bytes are written and the decoder raises, the loader
    propagates that same exception, and the [finally] has removed the
    temporary file: the file system is as before the call. *)
Theorem decoder_exception_propagates_after_cleanup {o3d : Open3D}
    (file_bytes : list Byte.byte) (fs : FileSystem) (e : exn) :
  (length file_bytes <= fs_free fs)%nat ->
  decode (Some file_bytes) = Raise e ->
  load_ply_file file_bytes fs = (Raise e, fs).
Proof.
  intros Hfit Hdec. rewrite (load_ply_file_written _ _ Hfit), Hdec. reflexivity.
Qed.

(** An empty upload, which the small decoder rejects. *)
Lemma decoder_exception_on_empty_upload :
  (length (@nil Byte.byte) <= fs_free (mkFS ∅ 8))%nat /\
  load_ply_file (o3d := toy_o3d) [] (mkFS ∅ 8) = (Raise DecodeError, mkFS ∅ 8).
Proof.
  split; [simpl; lia |].
  apply (decoder_exception_propagates_after_cleanup (o3d := toy_o3d)).
  - simpl; lia.
  - reflexivity.
Defined.



(** X3. A record the loader returns agrees with the handle it retains: the
    handle is what the decoder made of exactly the uploaded bytes, [points]
    are its points, [colors] are its colours when it has any, and [normals]
    is present exactly when the cloud has normals, and then holds them. *)
Theorem loaded_record_agrees_with_handle {o3d : Open3D}
    (file_bytes : list Byte.byte) (fs fs' : FileSystem)
    (rec : PointCloudRecord PointCloud) :
  load_ply_file file_bytes fs = (Ok rec, fs') ->
  decode (Some file_bytes) = Ok (pcd rec) /\
  points rec = pcd_points (pcd rec) /\
  (has_colors (pcd rec) = true -> colors rec = pcd_colors (pcd rec)) /\
  normals rec =
    (if has_normals (pcd rec) then Some (pcd_normals (pcd rec)) else None) /\
  (normals rec = None <-> has_normals (pcd rec) = false).
Proof.
  intros Hload.
  destruct (load_ply_file_ok _ _ _ _ Hload) as (cloud & Hdec & -> & _).
  unfold record_of; simpl.
  repeat split; try assumption.
  - intros ->. reflexivity.
  - destruct (has_normals cloud); [discriminate | reflexivity].
  - intros ->. reflexivity.
Qed.

(** A coloured point through the small decoder. *)
Lemma loaded_record_of_a_coloured_point :
  exists rec,
    load_ply_file (o3d := toy_o3d) [Byte.x01; Byte.x02; Byte.x03; Byte.x04] (mkFS ∅ 64)
      = (Ok rec, mkFS ∅ 64) /\
    points rec = pcd_points (pcd rec) /\
    normals rec = None.
Proof.
  eexists. split; [reflexivity |].
  pose proof (loaded_record_agrees_with_handle (o3d := toy_o3d)
                [Byte.x01; Byte.x02; Byte.x03; Byte.x04] (mkFS ∅ 64) (mkFS ∅ 64) _ eq_refl)
    as (_ & Hp & _ & _ & Hn).
  split; [exact Hp |]. apply Hn. reflexivity.
Defined.

(** * Further properties of the camera framing *)

Section FramingGeometry.
Local Open Scope Q_scope.










(** The three axis ranges decide the framing. *)
Lemma camera_framing_ranges (pts : list row3) (fr : Framing) :
  camera_framing pts = Ok fr ->
  axis_range (column col0 pts) = Ok (x_range fr) /\
  axis_range (column col1 pts) = Ok (y_range fr) /\
  axis_range (column col2 pts) = Ok (z_range fr) /\
  center fr = ((fst (x_range fr) + snd (x_range fr)) / 2,
               (fst (y_range fr) + snd (y_range fr)) / 2,
               (fst (z_range fr) + snd (z_range fr)) / 2) /\
  max_range fr = py_max3 (span (x_range fr)) (span (y_range fr)) (span (z_range fr)) /\
  camera_dist fr = max_range fr * 2.5.
Proof.
  unfold camera_framing.
  destruct (axis_range (column col0 pts)) as [rx | e]; [| discriminate].
  destruct (axis_range (column col1 pts)) as [ry | e]; [| discriminate].
  destruct (axis_range (column col2 pts)) as [rz | e]; [| discriminate].
  simpl. intros H. inversion H; subst; clear H. simpl.
  repeat split.
Qed.


Lemma camera_framing_nonempty (pts : list row3) (fr : Framing) :
  camera_framing pts = Ok fr -> pts <> [].
Proof. intros H ->. discriminate H. Qed.

Lemma camera_framing_bounds (pts : list row3) (fr : Framing) :
  camera_framing pts = Ok fr ->
  bounds (x_range fr) (column col0 pts) /\
  bounds (y_range fr) (column col1 pts) /\
  bounds (z_range fr) (column col2 pts).
Proof.
  intros H.
  destruct (camera_framing_spec pts (camera_framing_nonempty pts fr H))
    as (fr0 & E0 & Bx & By & Bz & _).
  rewrite H in E0. inversion E0; subst. auto.
Qed.
End FramingGeometry.

Section FramingInvariance.
Local Open Scope Q_scope.


End FramingInvariance.





Section FramingExtent.
Local Open Scope Q_scope.

Lemma bounds_ordered (r : Q * Q) (a : list Q) : bounds r a -> fst r <= snd r.
Proof.
  intros (Hlo & _ & Hall). destruct (Hall _ Hlo) as [_ H]. exact H.
Qed.

Lemma bounds_within (k : row3 -> Q) (r : Q * Q) (pts : list row3) (p : row3) :
  bounds r (column k pts) -> In p pts -> fst r <= k p /\ k p <= snd r.
Proof.
  intros (_ & _ & Hall) Hp. apply Hall. unfold column. now apply List.in_map.
Qed.

Lemma bounds_attained (k : row3 -> Q) (r : Q * Q) (pts : list row3) :
  bounds r (column k pts) ->
  exists p q, In p pts /\ In q pts /\ k p = fst r /\ k q = snd r.
Proof.
  intros (Hlo & Hhi & _). unfold column in *.
  apply List.in_map_iff in Hlo. destruct Hlo as (p & Ep & Hp).
  apply List.in_map_iff in Hhi. destruct Hhi as (q & Eq & Hq).
  exists p, q. auto.
Qed.

Lemma framing_facts (pts : list row3) (fr : Framing) :
  camera_framing pts = Ok fr ->
  bounds (x_range fr) (column col0 pts) /\
  bounds (y_range fr) (column col1 pts) /\
  bounds (z_range fr) (column col2 pts) /\
  largest_of3 (max_range fr)
    (span (x_range fr)) (span (y_range fr)) (span (z_range fr)) /\
  camera_dist fr == max_range fr * (5 # 2).
Proof.
  intros H.
  destruct (camera_framing_bounds pts fr H) as (Bx & By & Bz).
  destruct (camera_framing_ranges pts fr H) as (_ & _ & _ & _ & Em & Ed).
  repeat match goal with |- _ /\ _ => split end; try assumption.
  - rewrite Em. apply py_max3_spec.
  - rewrite Ed. apply Qmult_comp; [reflexivity | now unfold Qeq].
Qed.
End FramingExtent.

(** X6. [max_range] and [camera_dist] are never negative, and the camera
    collapses onto the origin ([camera_dist] 0) exactly when all points of
    the cloud coincide: one point, or any number of copies of it. *)
Theorem camera_collapses_iff_points_coincide (pts : list row3) (fr : Framing) :
  camera_framing pts = Ok fr ->
  (0 <= max_range fr)%Q /\
  (0 <= camera_dist fr)%Q /\
  ((camera_dist fr == 0)%Q <->
   forall p q, In p pts -> In q pts -> row_eq p q).
Proof.
  intros H.
  destruct (framing_facts pts fr H) as (Bx & By & Bz & [Hpick (Hx & Hy & Hz)] & Ed).
  pose proof (bounds_ordered _ _ Bx) as Ox.
  pose proof (bounds_ordered _ _ By) as Oy.
  pose proof (bounds_ordered _ _ Bz) as Oz.
  unfold span in *.
  assert (Hm : (0 <= max_range fr)%Q) by lra.
  split; [exact Hm |]. split; [lra |]. split.
  - intros Hd p q Hp Hq.
    destruct (bounds_within col0 _ _ p Bx Hp), (bounds_within col0 _ _ q Bx Hq).
    destruct (bounds_within col1 _ _ p By Hp), (bounds_within col1 _ _ q By Hq).
    destruct (bounds_within col2 _ _ p Bz Hp), (bounds_within col2 _ _ q Bz Hq).
    unfold row_eq. repeat split; lra.
  - intros Hall.
    destruct (bounds_attained col0 _ _ Bx) as (p0 & q0 & Hp0 & Hq0 & Ep0 & Eq0).
    destruct (bounds_attained col1 _ _ By) as (p1 & q1 & Hp1 & Hq1 & Ep1 & Eq1).
    destruct (bounds_attained col2 _ _ Bz) as (p2 & q2 & Hp2 & Hq2 & Ep2 & Eq2).
    destruct (Hall p0 q0 Hp0 Hq0) as (E0 & _ & _).
    destruct (Hall p1 q1 Hp1 Hq1) as (_ & E1 & _).
    destruct (Hall p2 q2 Hp2 Hq2) as (_ & _ & E2).
    rewrite Ep0, Eq0 in E0. rewrite Ep1, Eq1 in E1. rewrite Ep2, Eq2 in E2.
    destruct Hpick as [Hk | [Hk | Hk]]; rewrite Hk in Ed; lra.
Qed.

(** Three copies of one point, and the cube. *)
Lemma camera_collapse_examples :
  (exists fr,
      camera_framing [(2, 3, 4); (2, 3, 4); (2, 3, 4)]%Q = Ok fr /\
      (camera_dist fr == 0)%Q) /\
  (exists fr, camera_framing cube = Ok fr /\ (0 <= camera_dist fr)%Q).
Proof.
  split.
  - eexists. split; [reflexivity |].
    apply (camera_collapses_iff_points_coincide
             [(2, 3, 4); (2, 3, 4); (2, 3, 4)]%Q _ eq_refl).
    intros p q Hp Hq. simpl in Hp, Hq.
    destruct Hp as [<- | [<- | [<- | []]]]; destruct Hq as [<- | [<- | [<- | []]]];
      repeat split; reflexivity.
  - eexists. split; [reflexivity |].
    apply (camera_collapses_iff_points_coincide cube _ eq_refl).
Defined.



(** * Further properties of the colour conversion *)

Section Truncation.
Local Open Scope Q_scope.

Lemma py_int_nonneg (x : Q) : 0 <= x -> (0 <= py_int x)%Z.
Proof.
  intros H. rewrite (py_int_floor x H).
  change 0%Z with (Qfloor 0). now apply Qfloor_resp_le.
Qed.

Lemma py_int_of_negative (x : Q) : x <= 0 -> py_int x = (- Qfloor (- x))%Z.
Proof.
  intros H.
  assert (Hx : 0 <= - x) by lra.
  rewrite <- (py_int_floor (- x) Hx), py_int_opp. lia.
Qed.


Lemma py_int_monotone (x y : Q) : x <= y -> (py_int x <= py_int y)%Z.
Proof.
  intros Hxy.
  destruct (Qlt_le_dec x 0) as [Hx | Hx]; destruct (Qlt_le_dec y 0) as [Hy | Hy].
  - rewrite (py_int_of_negative x), (py_int_of_negative y) by lra.
    assert (Qfloor (- y) <= Qfloor (- x))%Z by (apply Qfloor_resp_le; lra). lia.
  - rewrite (py_int_of_negative x) by lra.
    assert (0 <= Qfloor (- x))%Z
      by (change 0%Z with (Qfloor 0); apply Qfloor_resp_le; lra).
    pose proof (py_int_nonneg y Hy). lia.
  - lra.
  - rewrite (py_int_floor x Hx), (py_int_floor y Hy). now apply Qfloor_resp_le.
Qed.
End Truncation.



(** * The loader followed by the builder *)

Lemma default_colors_repeat (n : nat) :
  np_scale (np_ones n) 0.5 = repeat (0.5, 0.5, 0.5)%Q n.
Proof.
  unfold np_scale, np_ones. induction n as [| n IH]; simpl; [reflexivity |].
  f_equal. exact IH.
Qed.

Lemma map_repeat_const {A B : Type} (f : A -> B) (a : A) (n : nat) :
  List.map f (repeat a n) = repeat (f a) n.
Proof. induction n as [| n IH]; simpl; [reflexivity | now rewrite IH]. Qed.



(** X10. A parsed, non-empty cloud without a colour channel is drawn with
    the colour string "rgb(127,127,127)" for every point: the default 0.5
    is cut to 127, not rounded to 128. *)
Theorem uncoloured_cloud_renders_gray_127 {o3d : Open3D}
    (file_bytes : list Byte.byte) (fs : FileSystem) (cloud : PointCloud)
    (point_size splat_scale : Q) :
  (length file_bytes <= fs_free fs)%nat ->
  decode (Some file_bytes) = Ok cloud ->
  has_colors cloud = false ->
  pcd_points cloud <> [] ->
  exists rec fig tr,
    load_ply_file file_bytes fs = (Ok rec, fs) /\
    create_gaussian_splatting_visualization rec point_size splat_scale = Ok fig /\
    fig_data fig = [tr] /\
    marker_color (trace_marker tr)
      = repeat "rgb(127,127,127)" (length (pcd_points cloud)).
Proof.
  intros Hfit Hdec Hnc Hne.
  assert (Hne' : points (record_of cloud) <> []) by exact Hne.
  destruct (camera_framing_spec _ Hne') as (fr & Efr & _).
  destruct (build_of_framing (record_of cloud) point_size splat_scale fr Efr)
    as (fig & lay & Efig & Edata & _).
  exists (record_of cloud), fig. eexists.
  rewrite (load_ply_file_written _ _ Hfit), Hdec.
  split; [reflexivity |]. split; [exact Efig |]. split; [exact Edata |].
  unfold scatter_trace, record_of; simpl. rewrite Hnc.
  rewrite default_colors_repeat, map_repeat_const. reflexivity.
Qed.

(** Two uncoloured points through the small decoder. *)
Lemma two_uncoloured_points_render_gray :
  exists rec fig tr,
    load_ply_file (o3d := toy_o3d)
      [Byte.x00; Byte.x02; Byte.x03; Byte.x04; Byte.x0a; Byte.x0a; Byte.x0a]
      (mkFS ∅ 64) = (Ok rec, mkFS ∅ 64) /\
    create_gaussian_splatting_visualization rec 5 1 = Ok fig /\
    fig_data fig = [tr] /\
    marker_color (trace_marker tr) = ["rgb(127,127,127)"; "rgb(127,127,127)"].
Proof.
  destruct (uncoloured_cloud_renders_gray_127 (o3d := toy_o3d)
              [Byte.x00; Byte.x02; Byte.x03; Byte.x04; Byte.x0a; Byte.x0a; Byte.x0a]
              (mkFS ∅ 64)
              (mkToy [(2, 3, 4); (10, 10, 10)]%Q [] [])
              5%Q 1%Q)
    as (rec & fig & tr & H1 & H2 & H3 & H4);
    [simpl; lia | reflexivity | reflexivity | discriminate |].
  exists rec, fig, tr. auto.
Defined.

(** * The sidebar statistics and the upload branch *)

Section ScriptFacts.
Context {o3d : Open3D} {rt : Runtime o3d}.

Lemma axis_range_ends (a : list Q) (r : Q * Q) :
  axis_range a = Ok r -> np_min a = Ok (fst r) /\ np_max a = Ok (snd r).
Proof.
  destruct a as [| x rest]; [discriminate |].
  unfold axis_range; simpl. intros H. inversion H; subst. auto.
Qed.

Lemma display_run_nonempty {Handle : Type} (data : PointCloudRecord Handle)
    (fr : Framing) (app : App) :
  camera_framing (points data) = Ok fr ->
  display_point_cloud_info data app
  = (Ok tt, mkApp (app_fs app) (app_page app ++ statistics_entries data fr)).
Proof.
  intros H.
  destruct (camera_framing_ranges _ _ H) as (Ex & Ey & Ez & _).
  destruct (axis_range_ends _ _ Ex) as [Nx Mx].
  destruct (axis_range_ends _ _ Ey) as [Ny My].
  destruct (axis_range_ends _ _ Ez) as [Nz Mz].
  unfold display_point_cloud_info, np_min_axis0, np_max_axis0, statistics_entries.
  unfold mbind, UI_bind, show, lift_result; simpl.
  rewrite Nx, Ny, Nz, Mx, My, Mz; simpl.
  destruct (normals data); simpl; rewrite <- !List.app_assoc; reflexivity.
Qed.

Lemma display_run_empty {Handle : Type} (data : PointCloudRecord Handle) (app : App) :
  points data = [] ->
  display_point_cloud_info data app
  = (Raise ValueError, mkApp (app_fs app) (app_page app ++ statistics_head 0)).
Proof.
  intros H.
  unfold display_point_cloud_info, np_min_axis0, statistics_head.
  unfold mbind, UI_bind, show, lift_result; simpl.
  rewrite H; simpl. rewrite <- !List.app_assoc. reflexivity.
Qed.
End ScriptFacts.

Section UploadBranch.
Context {o3d : Open3D} {rt : Runtime o3d}.

Lemma render_run_load_failed (file_bytes : list Byte.byte) (ctl : Controls)
    (app : App) (e : exn) (fs' : FileSystem) :
  load_ply_file file_bytes (app_fs app) = (Raise e, fs') ->
  render_uploaded_file file_bytes ctl app
  = (Ok tt, mkApp fs' (app_page app ++ [error_box e])).
Proof.
  intros Hload.
  unfold render_uploaded_file, try_except.
  unfold mbind at 1, UI_bind at 1, lift_io. rewrite Hload. reflexivity.
Qed.

Lemma render_run_empty (file_bytes : list Byte.byte) (ctl : Controls)
    (app : App) (data : PointCloudRecord PointCloud) (fs' : FileSystem) :
  load_ply_file file_bytes (app_fs app) = (Ok data, fs') ->
  points data = [] ->
  render_uploaded_file file_bytes ctl app
  = (Ok tt, mkApp fs' (app_page app ++ statistics_head 0 ++ [error_box ValueError])).
Proof.
  intros Hload Hempty.
  unfold render_uploaded_file, try_except.
  unfold mbind at 1, UI_bind at 1, lift_io. rewrite Hload.
  unfold mbind at 1, UI_bind at 1.
  rewrite (display_run_empty data _ Hempty). unfold show; simpl.
  rewrite <- !List.app_assoc. reflexivity.
Qed.

Lemma render_run_framed (file_bytes : list Byte.byte) (ctl : Controls)
    (app : App) (data : PointCloudRecord PointCloud) (fs' : FileSystem)
    (fr : Framing) (fig : Figure) :
  load_ply_file file_bytes (app_fs app) = (Ok data, fs') ->
  camera_framing (points data) = Ok fr ->
  create_gaussian_splatting_visualization data
    (inject_Z (point_size_value ctl)) (splat_scale_value ctl) = Ok fig ->
  render_uploaded_file file_bytes ctl app
  = (Ok tt,
     mkApp fs'
       (app_page app ++ statistics_entries data fr ++ settings_entries
          ++ chart_entries fig ++ download_entries (pcd data) (download_clicked ctl))).
Proof.
  intros Hload Hfr Hfig.
  unfold render_uploaded_file, try_except.
  unfold mbind at 1, UI_bind at 1, lift_io. rewrite Hload.
  unfold mbind at 1, UI_bind at 1.
  rewrite (display_run_nonempty data fr _ Hfr).
  unfold mbind, UI_bind, show, widget, lift_result, mret, UI_ret.
  cbn [app_fs app_page]. rewrite Hfig. cbn [app_fs app_page].
  unfold download_entries, error_box.
  destruct (download_clicked ctl); [destruct (write_point_cloud (pcd data)) |];
    cbn [app_fs app_page];
    unfold settings_entries, chart_entries;
    repeat rewrite <- List.app_assoc; simpl; try rewrite List.app_nil_r; reflexivity.
Qed.
End UploadBranch.

(** X11. For a non-empty cloud the sidebar statistics succeed and add seven
    entries: heading, point count, "Bounding Box:", one line per axis with
    the very minimum and maximum the builder uses for its camera framing,
    and the normals line, which says "Available" exactly when the record
    holds normals.  The file system is not touched. *)
Theorem statistics_show_the_framing_ranges {o3d : Open3D} {rt : Runtime o3d}
    {Handle : Type} (data : PointCloudRecord Handle) (app : App) :
  points data <> [] ->
  exists fr,
    camera_framing (points data) = Ok fr /\
    display_point_cloud_info data app
    = (Ok tt, mkApp (app_fs app) (app_page app ++ statistics_entries data fr)) /\
    length (statistics_entries data fr) = 7%nat /\
    (List.last (statistics_entries data fr) (SidebarWrite "")
       = SidebarWrite "Normals: Available" <-> normals data <> None).
Proof.
  intros Hne.
  destruct (camera_framing_spec _ Hne) as (fr & Efr & _).
  exists fr. split; [exact Efr |].
  split; [apply (display_run_nonempty data fr app Efr) |].
  split; [reflexivity |].
  unfold statistics_entries; simpl.
  destruct (normals data); split; intros H; try discriminate; try reflexivity.
  contradiction.
Qed.

(** The statistics of the cube, with and without normals. *)
Lemma statistics_of_the_cube :
  let app := mkApp (mkFS ∅ 64) [] in
  cube <> [] /\
  app_page (snd (display_point_cloud_info (rt := toy_runtime)
                   (mkRecord cube [] (Some cube) tt) app))
  = [SidebarSubheader "Point Cloud Information";
     SidebarWrite "Number of points: 8";
     SidebarWrite "Bounding Box:";
     SidebarWrite "X: [0.00, 10.00]";
     SidebarWrite "Y: [0.00, 10.00]";
     SidebarWrite "Z: [0.00, 10.00]";
     SidebarWrite "Normals: Available"].
Proof.
  intros app. split; [discriminate |].
  destruct (statistics_show_the_framing_ranges (rt := toy_runtime)
              (mkRecord cube [] (Some cube) tt) app ltac:(discriminate))
    as (fr & Efr & Erun & _).
  rewrite Erun. inversion Efr; subst. reflexivity.
Defined.

(** X12. For an empty cloud the sidebar statistics raise [ValueError] (the
    zero-size reduction of [points.min(axis=0)]) after having written three
    entries: heading, a point count of 0 and "Bounding Box:". *)
Theorem statistics_of_empty_cloud_raise {o3d : Open3D} {rt : Runtime o3d}
    {Handle : Type} (data : PointCloudRecord Handle) (app : App) :
  points data = [] ->
  display_point_cloud_info data app
  = (Raise ValueError,
     mkApp (app_fs app)
       (app_page app ++
          [SidebarSubheader "Point Cloud Information";
           SidebarWrite ("Number of points: " ++ format_thousands 0);
           SidebarWrite "Bounding Box:"])).
Proof. intros H. apply (display_run_empty data app H). Qed.

(** The statistics of the empty record. *)
Lemma statistics_of_the_empty_record :
  let data := mkRecord [] [] None tt in
  points data = [] /\
  display_point_cloud_info (rt := toy_runtime) data (mkApp (mkFS ∅ 64) [])
  = (Raise ValueError,
     mkApp (mkFS ∅ 64)
       [SidebarSubheader "Point Cloud Information";
        SidebarWrite "Number of points: 0";
        SidebarWrite "Bounding Box:"]).
Proof.
  intros data. split; [reflexivity |].
  apply (statistics_of_empty_cloud_raise (rt := toy_runtime) data
           (mkApp (mkFS ∅ 64) []) eq_refl).
Defined.

(** X13. When the decoder raises on the uploaded bytes, the upload branch
    ends normally with exactly one new element on the page, the error box
    carrying the decoder's message: no statistics, no sliders, no chart;
    and the file system is as before. *)
Theorem undecodable_upload_shows_only_the_error {o3d : Open3D} {rt : Runtime o3d}
    (file_bytes : list Byte.byte) (ctl : Controls) (app : App) (e : exn) :
  (length file_bytes <= fs_free (app_fs app))%nat ->
  decode (Some file_bytes) = Raise e ->
  render_uploaded_file file_bytes ctl app
  = (Ok tt,
     mkApp (app_fs app)
       (app_page app ++ [StError ("Error processing the PLY file: " ++ exn_str e)])).
Proof.
  intros Hfit Hdec. apply render_run_load_failed.
  rewrite (load_ply_file_written _ _ Hfit), Hdec. reflexivity.
Qed.

(** An empty upload. *)
Lemma empty_upload_shows_only_the_error :
  let app := mkApp (mkFS ∅ 64) [] in
  (length (@nil Byte.byte) <= fs_free (app_fs app))%nat /\
  render_uploaded_file (rt := toy_runtime) [] (mkControls 5 1 false) app
  = (Ok tt, mkApp (mkFS ∅ 64) [StError "Error processing the PLY file: cannot decode"]).
Proof.
  intros app. split; [simpl; lia |].
  apply (undecodable_upload_shows_only_the_error (rt := toy_runtime)
           [] (mkControls 5 1 false) app DecodeError); [simpl; lia | reflexivity].
Defined.

(** X14. An upload that decodes to a cloud without points is reported from
    the sidebar statistics, before the builder is called: the page gets the
    heading, a point count of 0, "Bounding Box:" and then the error box for
    [ValueError]; no sliders and no chart follow. *)
Theorem empty_cloud_upload_fails_in_the_statistics {o3d : Open3D} {rt : Runtime o3d}
    (file_bytes : list Byte.byte) (ctl : Controls) (app : App) (cloud : PointCloud) :
  (length file_bytes <= fs_free (app_fs app))%nat ->
  decode (Some file_bytes) = Ok cloud ->
  pcd_points cloud = [] ->
  render_uploaded_file file_bytes ctl app
  = (Ok tt,
     mkApp (app_fs app)
       (app_page app ++
          [SidebarSubheader "Point Cloud Information";
           SidebarWrite ("Number of points: " ++ format_thousands 0);
           SidebarWrite "Bounding Box:";
           StError ("Error processing the PLY file: " ++ exn_str ValueError)])).
Proof.
  intros Hfit Hdec Hempty.
  rewrite (render_run_empty file_bytes ctl app (record_of cloud) (app_fs app)).
  - reflexivity.
  - rewrite (load_ply_file_written _ _ Hfit), Hdec. reflexivity.
  - exact Hempty.
Qed.

(** A file holding the flag byte and no point. *)
Lemma flag_only_upload_fails_in_the_statistics :
  let app := mkApp (mkFS ∅ 64) [] in
  (length [Byte.x00] <= fs_free (app_fs app))%nat /\
  render_uploaded_file (rt := toy_runtime) [Byte.x00] (mkControls 5 1 true) app
  = (Ok tt,
     mkApp (mkFS ∅ 64)
       [SidebarSubheader "Point Cloud Information";
        SidebarWrite "Number of points: 0";
        SidebarWrite "Bounding Box:";
        StError "Error processing the PLY file: zero-size array to reduction operation minimum which has no identity"]).
Proof.
  intros app. split; [simpl; lia |].
  apply (empty_cloud_upload_fails_in_the_statistics (rt := toy_runtime)
           [Byte.x00] (mkControls 5 1 true) app (mkToy [] [] []));
    [simpl; lia | reflexivity | reflexivity].
Defined.





(** X17. Whatever the bytes, the controls, the decoder and the device, the
    upload branch never lets an exception escape, and on a fresh page it
    leaves at most one chart and at most one error box; without a chart
    there is an error box, and when the download button was not pressed
    there is exactly one of the two. *)
Theorem upload_branch_ends_with_chart_or_error {o3d : Open3D} {rt : Runtime o3d}
    (file_bytes : list Byte.byte) (ctl : Controls) (fs : FileSystem) :
  exists fs' page,
    render_uploaded_file file_bytes ctl (mkApp fs []) = (Ok tt, mkApp fs' page) /\
    (charts page <= 1)%nat /\
    (errors page <= 1)%nat /\
    (charts page = 0%nat -> errors page = 1%nat) /\
    (download_clicked ctl = false -> (charts page + errors page = 1)%nat).
Proof.
  destruct (load_ply_file file_bytes fs) as [[data | e] fs'] eqn:Hload.
  - destruct (points data) as [| p rest] eqn:Hpts.
    + exists fs'. eexists. split.
      * apply (render_run_empty file_bytes ctl (mkApp fs []) data fs' Hload Hpts).
      * unfold charts, errors, statistics_head, error_box; simpl.
        repeat split; lia.
    + assert (Hne : points data <> []) by (rewrite Hpts; discriminate).
      destruct (camera_framing_spec _ Hne) as (fr & Efr & _).
      destruct (build_of_framing data
                  (inject_Z (point_size_value ctl)) (splat_scale_value ctl) fr Efr)
        as (fig & _ & Efig & _).
      exists fs'. eexists. split.
      * apply (render_run_framed file_bytes ctl (mkApp fs []) data fs' fr fig
                 Hload Efr Efig).
      * unfold download_entries.
        destruct (download_clicked ctl);
          [destruct (write_point_cloud (pcd data)) |];
          unfold charts, errors, error_box; simpl; repeat split;
          try lia; try discriminate.
  - exists fs'. eexists. split.
    + apply (render_run_load_failed file_bytes ctl (mkApp fs []) e fs' Hload).
    + unfold charts, errors, error_box; simpl. repeat split; lia.
Qed.

(** * The sample branch *)

Section Sample.
Local Open Scope Q_scope.

Lemma channel_within_byte (c : Q) : 0 <= c -> c <= 1 -> (0 <= channel c <= 255)%Z.
Proof.
  intros H0 H1. unfold channel. split.
  - change (py_int (0 * 255) <= py_int (c * 255))%Z. apply py_int_monotone. lra.
  - change (py_int (c * 255) <= py_int (1 * 255))%Z. apply py_int_monotone. lra.
Qed.

Lemma sample_channel_in_unit (v : Q) :
  -1 <= v -> v <= 1 -> 0 <= (v + 1) / 2 /\ (v + 1) / 2 <= 1.
Proof.
  intros Hlo Hhi. unfold Qdiv. change (/ 2) with (1 # 2). split; lra.
Qed.
End Sample.

(** X18. Without an upload, for sample points that are not empty and lie in
    the cube from -1 to 1 (as the points of the unit sphere do): the branch
    shows the notice, the heading and one chart; the chart has one colour
    string per point, and every colour has its three channels converted to
    integers from 0 to 255. *)
Theorem sample_is_rendered_with_valid_colours
    (pts : list row3) (app : App) :
  pts <> [] ->
  (forall p, In p pts ->
     (-1 <= col0 p <= 1)%Q /\ (-1 <= col1 p <= 1)%Q /\ (-1 <= col2 p <= 1)%Q) ->
  exists fig tr,
    render_sample pts app
    = (Ok tt,
       mkApp (app_fs app)
         (app_page app ++
            [StInfo "Upload a PLY file to visualize it with Gaussian splatting.";
             StSubheader "Sample Visualization (Will be replaced with your data)";
             PlotlyChart fig])) /\
    fig_data fig = [tr] /\
    length (marker_color (trace_marker tr)) = length pts /\
    forall c, In c (colors (sample_data pts)) ->
      (0 <= channel (col0 c) <= 255)%Z /\
      (0 <= channel (col1 c) <= 255)%Z /\
      (0 <= channel (col2 c) <= 255)%Z.
Proof.
  intros Hne Hunit.
  assert (Hne' : points (sample_data pts) <> []) by exact Hne.
  destruct (camera_framing_spec _ Hne') as (fr & Efr & _).
  destruct (build_of_framing (sample_data pts) 5%Q 1.0%Q fr Efr)
    as (fig & _ & Efig & Edata & _).
  exists fig. eexists. split; [| split; [exact Edata | split]].
  - unfold render_sample, mbind, UI_bind, show, lift_result; simpl.
    rewrite Efig; simpl. rewrite <- !List.app_assoc. reflexivity.
  - unfold scatter_trace, sample_data, sample_colors; simpl.
    rewrite !List.length_map. reflexivity.
  - intros c Hc. unfold sample_data, sample_colors in Hc; simpl in Hc.
    apply List.in_map_iff in Hc. destruct Hc as (p & <- & Hp).
    destruct (Hunit p Hp) as ([Hx0 Hx1] & [Hy0 Hy1] & [Hz0 Hz1]).
    unfold col0 at 1, col1 at 1, col2 at 1. cbn [fst snd].
    destruct (sample_channel_in_unit _ Hx0 Hx1).
    destruct (sample_channel_in_unit _ Hy0 Hy1).
    destruct (sample_channel_in_unit _ Hz0 Hz1).
    repeat split; apply channel_within_byte; assumption.
Qed.

(** The six points where the unit sphere meets the axes. *)
Lemma sample_of_six_points :
  let pts := [(1, 0, 0); (-1, 0, 0); (0, 1, 0); (0, -1, 0); (0, 0, 1); (0, 0, -1)]%Q in
  pts <> [] /\
  exists fig tr,
    app_page (snd (render_sample pts (mkApp (mkFS ∅ 0) [])))
    = [StInfo "Upload a PLY file to visualize it with Gaussian splatting.";
       StSubheader "Sample Visualization (Will be replaced with your data)";
       PlotlyChart fig] /\
    fig_data fig = [tr] /\
    length (marker_color (trace_marker tr)) = 6%nat /\
    (0 <= channel ((1 + 1) / 2) <= 255)%Z.
Proof.
  intros pts. split; [discriminate |].
  destruct (sample_is_rendered_with_valid_colours pts (mkApp (mkFS ∅ 0) []))
    as (fig & tr & Erun & Edata & Hlen & Hch).
  - discriminate.
  - intros p Hp. simpl in Hp.
    repeat (destruct Hp as [<- | Hp]; [repeat split; discriminate |]).
    destruct Hp.
  - exists fig, tr. rewrite Erun. split; [reflexivity |]. split; [exact Edata |].
    split; [exact Hlen |].
    apply (Hch ((1 + 1) / 2, (0 + 1) / 2, (0 + 1) / 2)%Q).
    simpl. left. reflexivity.
Defined.
